(** * Complex numbers and Kirchhoff's voltage law over binary64

    A shallow embedding of [math/complex_numbers.cpp] and of the Kirchhoff
    voltage-law check, with C++ [double] modelled by Rocq's primitive
    IEEE 754 binary64 floats.  Arithmetic, comparison and [sqrt] are the
    processor operations; the few [libm] functions the code calls
    ([cos], [sin], [atan2]) have no counterpart and are taken as
    parameters.

    The binary operators [+], [-], [*] and [/] of the class name the
    getter [real_] without calling it (lines 81, 88, 96-97 and 114-115):
    they are ill-formed C++, and they are embedded as such.  What the
    spec says they compute is stated separately, in [Spec], for
    comparison. *)

From Stdlib Require Import ZArith Bool List String Lia Permutation.
From Stdlib Require Import Floats.
Import ListNotations.

Set Warnings "-inexact-float".

(** ** The [Complex] class of [math/complex_numbers.cpp] *)

Module ComplexNumbers.

(** The two private fields, read through the getters [real_()] and
    [imag_()]. *)
Record Complex : Set := mkComplex { real_ : float; imag_ : float }.

(** The only exception the class raises. *)
Inductive exn : Set :=
| invalid_argument (what : string).

(** A call either returns a value or throws. *)
Inductive result (A : Type) : Type :=
| Return (a : A)
| Throw (e : exn).
Arguments Return {A} a.
Arguments Throw {A} e.

Definition DivisionByZero : exn :=
  invalid_argument "Division by zero complex number".

Section Libm.

(** [std::cos], [std::sin] and [std::atan2] on [double]. *)
Variables cos sin : float -> float.
Variable atan2 : float -> float -> float.

(** [explicit Complex(double x = 0.0, double y = 0.0, bool is_polar = false)] *)
Definition Complex_ (x y : float) (is_polar : bool) : Complex :=
  if negb is_polar then
    {| real_ := x; imag_ := y |}
  else
    (* Convert polar form to rectangular form *)
    {| real_ := x * cos y; imag_ := x * sin y |}.


End Libm.

(** [Complex(x, y)]: the constructor with [is_polar] left at its default
    [false]; this branch calls neither [cos] nor [sin]
    (see [Complex_rectangular] below). *)
Definition Complex2 (x y : float) : Complex :=
  {| real_ := x; imag_ := y |}.

(** [double abs() const] *)
Definition abs (c : Complex) : float :=
  sqrt (real_ c * real_ c + imag_ c * imag_ c).

(** [Complex operator~() const] *)
Definition conj (c : Complex) : Complex :=
  Complex2 (real_ c) (- imag_ c).

(** *** Member access in the binary operators

    Inside a member function, [real], [imaginary], [other.real] and
    [other.imaginary] name the private data members: objects of type
    [double].  [other.real_] names the getter declared at line 56: a
    member function, which gives a value only when it is called, as in
    [other.real_()]. *)
Inductive member : Set :=
| data_member (value : float)
| member_function (body : unit -> float).

Definition dot_real (c : Complex) : member := data_member (real_ c).

Definition dot_imaginary (c : Complex) : member := data_member (imag_ c).

Definition dot_real_ (c : Complex) : member :=
  member_function (fun _ => real_ c).

(** A function body is well-formed, and then it denotes what it
    computes, or it is ill-formed: the translation unit is rejected and
    the function computes nothing. *)
Inductive compiled (A : Type) : Type :=
| well_formed (a : A)
| ill_formed.
Arguments well_formed {A} a.
Arguments ill_formed {A}.

Definition bind {A B : Type} (c : compiled A) (k : A -> compiled B)
  : compiled B :=
  match c with
  | well_formed a => k a
  | ill_formed => ill_formed
  end.

Notation "x <- c ;; k" := (bind c (fun x => k))
  (at level 61, c at next level, right associativity).

(** An operand of the built-in arithmetic on [double]: a data member is
    read; the name of a non-static member function that is not called
    is not a value, and the expression is ill-formed. *)
Definition operand (m : member) : compiled float :=
  match m with
  | data_member value => well_formed value
  | member_function _ => ill_formed
  end.

(** [Complex operator+(const Complex &other) const]:
    [return Complex(real + other.real_, imaginary + other.imaginary);] *)
Definition add (c other : Complex) : compiled Complex :=
  real <- operand (dot_real c) ;;
  other_real_ <- operand (dot_real_ other) ;;
  imaginary <- operand (dot_imaginary c) ;;
  other_imaginary <- operand (dot_imaginary other) ;;
  well_formed (Complex2 (real + other_real_) (imaginary + other_imaginary)).

(** [Complex operator-(const Complex &other) const]:
    [return Complex(real - other.real_, imaginary - other.imaginary);] *)
Definition sub (c other : Complex) : compiled Complex :=
  real <- operand (dot_real c) ;;
  other_real_ <- operand (dot_real_ other) ;;
  imaginary <- operand (dot_imaginary c) ;;
  other_imaginary <- operand (dot_imaginary other) ;;
  well_formed (Complex2 (real - other_real_) (imaginary - other_imaginary)).

(** [Complex operator*(const Complex &other) const]:
    [return Complex(real * other.real_ - imaginary * other.imaginary,
                    real * other.imaginary + imaginary * other.real_);] *)
Definition mul (c other : Complex) : compiled Complex :=
  real <- operand (dot_real c) ;;
  other_real_ <- operand (dot_real_ other) ;;
  imaginary <- operand (dot_imaginary c) ;;
  other_imaginary <- operand (dot_imaginary other) ;;
  well_formed (Complex2 (real * other_real_ - imaginary * other_imaginary)
                        (real * other_imaginary + imaginary * other_real_)).

(** The local [denominator] of [operator/]:
    [other.real_ * other.real_ + other.imaginary * other.imaginary]. *)
Definition denominator (other : Complex) : compiled float :=
  other_real_ <- operand (dot_real_ other) ;;
  other_imaginary <- operand (dot_imaginary other) ;;
  well_formed (other_real_ * other_real_
               + other_imaginary * other_imaginary)%float.

(** [Complex operator/(const Complex &other) const]: the denominator,
    the guard that throws, then the product of [*this] and [~other] and
    the two quotients, read through the getters [real_()] and
    [imag_()]. *)
Definition div (c other : Complex) : compiled (result Complex) :=
  denominator <- denominator other ;;
  if (denominator =? 0)%float then
    well_formed (Throw (invalid_argument "Division by zero complex number"))
  else
    numerator <- mul c (conj other) ;;
    well_formed (Return (Complex2 (real_ numerator / denominator)
                                  (imag_ numerator / denominator))).

(** [bool operator==(const Complex &a, const Complex &b)] *)
Definition eqb (a b : Complex) : bool :=
  (real_ a =? real_ b)%float && (imag_ a =? imag_ b)%float.

(** What is inserted into a [std::ostream]: string literals and
    [double] values, in order.  How the stream renders a [double] as
    text is the stream's business, not the class's. *)
Inductive item : Set :=
| Str (s : string)
| Dbl (d : float).

Definition ostream : Set := list item.

(** [std::ostream &operator<<(std::ostream &os, const Complex &num)] *)
Definition print (os : ostream) (num : Complex) : ostream :=
  let os := os ++ [Str "("; Dbl (real_ num)] in
  let os :=
    if (imag_ num <? 0)%float then
      os ++ [Str " - "; Dbl (- imag_ num)]
    else
      os ++ [Str " + "; Dbl (imag_ num)] in
  os ++ [Str "i)"].

(** The text of a stream, given the stream's rendering of a [double]. *)
Definition render (show : float -> string) (os : ostream) : string :=
  fold_right (fun it acc =>
                match it with
                | Str s => s ++ acc
                | Dbl d => show d ++ acc
                end)%string EmptyString os.

(** The spec's zero value: both components compare equal to zero. *)
Definition is_zero_value (b : Complex) : bool :=
  (real_ b =? 0)%float && (imag_ b =? 0)%float.

(** Some component is not-a-number. *)
Definition has_nan (c : Complex) : bool :=
  is_nan (real_ c) || is_nan (imag_ c).


(** Conversion of an [int] to [double]; exact for every 32-bit value. *)
Definition double_of_int (z : Z) : float :=
  SF2Prim (binary_normalize prec emax z 0 false).

(** [double get_rand()], as a function of the value [r] that its call of
    [std::rand()] returns (an [int] between [0] and [RAND_MAX]); [%] on
    [int] truncates. *)
Definition get_rand (r : Z) : float :=
  double_of_int (Z.rem r 100 - 50) / 100.

End ComplexNumbers.

(** ** What the spec says the operators compute

    These three definitions follow the words of the spec (section 4.1),
    not the source; the source's operators are compared with them. *)

Module Spec.

Import ComplexNumbers.

(** [multiply(a, b)] -> [(a.real*b.real - a.imag*b.imag,
    a.real*b.imag + a.imag*b.real)]. *)
Definition multiply (a b : Complex) : Complex :=
  {| real_ := real_ a * real_ b - imag_ a * imag_ b;
     imag_ := real_ a * imag_ b + imag_ a * real_ b |}.

(** [conjugate(a)] -> [(a.real, -a.imag)]. *)
Definition conjugate (a : Complex) : Complex :=
  {| real_ := real_ a; imag_ := - imag_ a |}.

(** [divide(a, b)]: compute [denom = b.real^2 + b.imag^2]; fail with
    DivisionByZero when [denom == 0]; otherwise
    [numerator = multiply(a, conjugate(b))] and the result is
    [(numerator.real / denom, numerator.imag / denom)]. *)
Definition divide (a b : Complex) : result Complex :=
  let denom := (real_ b * real_ b + imag_ b * imag_ b)%float in
  if (denom =? 0)%float then Throw DivisionByZero
  else
    let numerator := multiply a (conjugate b) in
    Return {| real_ := real_ numerator / denom;
              imag_ := imag_ numerator / denom |}.

End Spec.


(** ** Kirchhoff's voltage law: [physics::kirchhoff_law] *)

Module Kirchhoff.

(** What the template [voltage_law_satisfied<T>] asks of its element
    type: conversion from the literals [0] and [1e-6], the [+] that
    [std::accumulate] folds with, [std::abs] and [<]. *)
Class Number (T : Type) : Type := {
  of_int : Z -> T;
  of_double : float -> T;
  plus : T -> T -> T;
  abs : T -> T;
  lt : T -> T -> bool
}.

(** [std::accumulate(first, last, init)]: a left fold with [+]. *)
Definition accumulate {T : Type} `{Number T} (l : list T) (init : T) : T :=
  fold_left plus l init.

(** [template <typename T> bool voltage_law_satisfied(const std::vector<T>&)] *)
Definition voltage_law_satisfied {T : Type} `{Number T}
           (voltages : list T) : bool :=
  let sum := accumulate voltages (of_int 0) in
  lt (abs sum) (of_double 1e-6).

(** *** [T = double], the instantiation the self-test uses *)

#[export] Instance double : Number float := {|
  of_int := fun z => SF2Prim (binary_normalize prec emax z 0 false);
  of_double := fun d => d;
  plus := PrimFloat.add;
  abs := PrimFloat.abs;
  lt := PrimFloat.ltb
|}.

(** *** [T = int], 32-bit two's complement *)

Definition int : Set := Z.

Definition INT_MIN : Z := (- 2 ^ 31)%Z.

(** Reduction into the range of [int]; signed overflow, undefined in
    C++, is taken to wrap as the usual targets do. *)
Definition wrap (z : Z) : Z := ((z + 2 ^ 31) mod 2 ^ 32 - 2 ^ 31)%Z.

(** Conversion of a [double] to an integer: the fraction is discarded. *)
Definition truncate (d : float) : Z :=
  match Prim2SF d with
  | S754_finite s m e => cond_Zopp s (Z.shiftl (Zpos m) e)
  | _ => 0%Z
  end.

#[export] Instance int_number : Number int := {|
  of_int := wrap;
  of_double := fun d => wrap (truncate d);
  plus := fun x y => wrap (x + y)%Z;
  abs := fun x => if (x <? 0)%Z then wrap (- x)%Z else x;
  lt := Z.ltb
|}.

(** No signed overflow: starting from [acc], every running sum of the
    voltages stays strictly between [INT_MIN] and [2^31], so that the
    additions of [std::accumulate] and the final [std::abs] are all
    defined on [int]. *)
Fixpoint no_overflow (acc : Z) (voltages : list int) : bool :=
  match voltages with
  | [] => true
  | v :: voltages' =>
      (INT_MIN <? acc + v)%Z && (acc + v <? 2 ^ 31)%Z
      && no_overflow (acc + v) voltages'
  end.

End Kirchhoff.

(** ** Bernoulli's theorem: [physics::bernoulli_theorem] *)

Module Bernoulli.

(** [constexpr double GRAVITY] *)
Definition GRAVITY : float := 9.80665.

(** [std::round] on [double]: the nearest integer, halfway cases away
    from zero; the sign is kept, also on a zero result. *)
Definition round (x : float) : float :=
  match Prim2SF x with
  | S754_finite s m e =>
      if (0 <=? e)%Z then x
      else
        let q := Z.shiftr (Zpos m) (- e) in
        let half := Z.testbit (Zpos m) (- e - 1) in
        let n := if half then (q + 1)%Z else q in
        SF2Prim (binary_normalize prec emax (cond_Zopp s n) 0 s)
  | _ => x
  end.

Section Libm.

(** [std::pow] on [double]. *)
Variable pow : float -> float -> float.

(** [template <typename T> T total_pressure(T pressure, T density,
    T velocity, T height, double gravity = GRAVITY)] at [T = double]. *)
Definition total_pressure
           (pressure density velocity height gravity : float) : float :=
  pressure + (0.5 * density * pow velocity 2) + (density * gravity * height).

(** The local [output] of [test()]: the total pressure rounded to one
    decimal place. *)
Definition test_output : float :=
  round (total_pressure 101325 1.225 10 5 GRAVITY * 10) / 10.

(** The condition of [assert(output == expected_total_pressure)]. *)
Definition test_assertion : bool :=
  (test_output =? 101446.1)%float.

End Libm.

End Bernoulli.


Import ComplexNumbers.
Import Kirchhoff.

(** ** Facts about binary64 used throughout *)

Module F64.

Lemma opp_involutive (x : float) : (- - x)%float = x.
Proof.
  apply Prim2SF_inj. rewrite !opp_spec.
  destruct (Prim2SF x) as [s | s | | s m e]; simpl;
    now rewrite ?negb_involutive.
Qed.

Lemma eqb_refl_nan (x : float) : (x =? x)%float = negb (is_nan x).
Proof. unfold is_nan. now rewrite negb_involutive. Qed.

(** A float that compares equal to zero is one of the two signed zeros. *)
Lemma eq0_cases (x : float) :
  (x =? 0)%float = true -> x = 0%float \/ x = (-0)%float.
Proof.
  rewrite eqb_spec. intros H.
  destruct (Prim2SF x) as [s | s | | s m e] eqn:E;
    try (destruct s; discriminate H).
  - destruct s; [right | left]; apply Prim2SF_inj; rewrite E; reflexivity.
  - discriminate H.
Qed.

(** Rounding a magnitude with a positive sign never gives a value below
    zero: the result is a zero, a finite or an infinity of sign [false],
    or not a number. *)
Lemma round_pos_not_neg (mx ex : Z) (lx : location) :
  SFltb (binary_round_aux prec emax false mx ex lx) (S754_zero false) = false.
Proof.
  unfold binary_round_aux.
  destruct (shr_fexp prec emax mx ex lx) as [mrs' e'].
  destruct (shr_fexp prec emax _ e' loc_Exact) as [mrs'' e''].
  destruct (shr_m mrs''); try reflexivity.
  destruct (Z.leb _ _); reflexivity.
Qed.

Lemma sqrt_not_neg (x : float) : (sqrt x <? 0)%float = false.
Proof.
  rewrite ltb_spec, sqrt_spec.
  change (Prim2SF 0) with (S754_zero false).
  unfold SF64sqrt, SFsqrt.
  destruct (Prim2SF x) as [s | [|] | | [|] m e]; try reflexivity.
  destruct (SFsqrt_core_binary prec emax (Zpos m) e) as [[mz ez] lz].
  apply round_pos_not_neg.
Qed.

(** A value that is not below zero is at least zero unless it is
    not-a-number. *)
Lemma nltb0_leb (x : float) :
  (x <? 0)%float = false -> (0 <=? x)%float = negb (is_nan x).
Proof.
  unfold is_nan. rewrite negb_involutive, ltb_spec, leb_spec, eqb_spec.
  change (Prim2SF 0) with (S754_zero false).
  destruct (Prim2SF x) as [s | s | | s m e];
    try (destruct s; (reflexivity || discriminate)).
  - reflexivity.
  - destruct s; [discriminate |]. intros _.
    unfold SFleb, SFeqb. simpl.
    now rewrite Z.compare_refl, Pos.compare_cont_refl.
Qed.

(** Below zero means the sign bit is set, and negation then agrees with
    the absolute value. *)
Lemma ltb0_opp_abs (x : float) :
  (x <? 0)%float = true -> (- x)%float = PrimFloat.abs x.
Proof.
  rewrite ltb_spec. change (Prim2SF 0) with (S754_zero false).
  intros H. apply Prim2SF_inj. rewrite opp_spec, abs_spec.
  destruct (Prim2SF x) as [s | s | | s m e]; try discriminate H;
    destruct s; try discriminate H; reflexivity.
Qed.

(** Not below zero and not the negative zero: the value is its own
    absolute value (this includes not-a-number). *)
Lemma nltb0_abs (x : float) :
  (x <? 0)%float = false -> x <> (-0)%float -> PrimFloat.abs x = x.
Proof.
  rewrite ltb_spec. change (Prim2SF 0) with (S754_zero false).
  intros H Hz. apply Prim2SF_inj. rewrite abs_spec.
  destruct (Prim2SF x) as [s | s | | s m e] eqn:E; try reflexivity;
    destruct s; try discriminate H; try reflexivity.
  exfalso. apply Hz. apply Prim2SF_inj. rewrite E. reflexivity.
Qed.

(** Rounding commutes with a change of sign. *)
Lemma round_negb (sx : bool) (mx ex : Z) (lx : location) :
  binary_round_aux prec emax (negb sx) mx ex lx
  = SFopp (binary_round_aux prec emax sx mx ex lx).
Proof.
  unfold binary_round_aux.
  destruct (shr_fexp prec emax mx ex lx) as [mrs' e'].
  destruct (shr_fexp prec emax _ e' loc_Exact) as [mrs'' e''].
  destruct (shr_m mrs''); try reflexivity.
  destruct (Z.leb _ _); reflexivity.
Qed.

Lemma mul_opp_l (x y : float) : (- x * y)%float = (- (x * y))%float.
Proof.
  apply Prim2SF_inj. rewrite opp_spec, !mul_spec, opp_spec.
  unfold SF64mul.
  destruct (Prim2SF x) as [sx | sx | | sx mx ex];
    destruct (Prim2SF y) as [sy | sy | | sy my ey]; simpl;
    try reflexivity;
    try (destruct sx, sy; reflexivity).
  replace (xorb (negb sx) sy) with (negb (xorb sx sy))
    by (destruct sx, sy; reflexivity).
  apply round_negb.
Qed.

(** The two zeros are different values, although they compare equal. *)
Lemma neg_zero_neq_zero : (-0)%float <> 0%float.
Proof.
  intros H.
  apply (f_equal (fun x => (1 / x <? 0)%float)) in H.
  vm_compute in H. discriminate H.
Qed.

(** *** The shape of a value: finite, infinite or not-a-number *)

Lemma SFcompare_refl_finite (s : bool) (m : positive) (e : Z) :
  SFcompare (S754_finite s m e) (S754_finite s m e) = Some Eq.
Proof.
  simpl. destruct s; rewrite Z.compare_refl, Pos.compare_cont_refl; reflexivity.
Qed.

Lemma is_nan_spec (x : float) : is_nan x = true <-> x = nan.
Proof.
  unfold is_nan. rewrite eqb_spec. split.
  - intros H. apply Prim2SF_inj. change (Prim2SF nan) with S754_nan.
    destruct (Prim2SF x) as [s | s | | s m e]; try reflexivity;
      try (destruct s; discriminate H).
    unfold SFeqb in H. rewrite SFcompare_refl_finite in H. discriminate H.
  - intros ->. reflexivity.
Qed.

Lemma is_finite_SF (x : float) :
  is_finite x = match Prim2SF x with
                | S754_zero _ | S754_finite _ _ _ => true
                | _ => false
                end.
Proof.
  unfold is_finite, is_nan, is_infinity.
  rewrite !eqb_spec, abs_spec.
  change (Prim2SF infinity) with (S754_infinity false).
  destruct (Prim2SF x) as [s | s | | s m e]; try reflexivity.
  - destruct s; reflexivity.
  - unfold SFeqb at 1. rewrite SFcompare_refl_finite. reflexivity.
Qed.

(** *** Addition and subtraction *)

Lemma add_comm (x y : float) : (x + y)%float = (y + x)%float.
Proof.
  apply Prim2SF_inj. rewrite !add_spec. unfold SF64add.
  destruct (Prim2SF x) as [sx | sx | | sx mx ex];
    destruct (Prim2SF y) as [sy | sy | | sy my ey]; simpl;
    try reflexivity; try (destruct sx, sy; reflexivity).
  rewrite (Z.min_comm ey ex). f_equal. apply Z.add_comm.
Qed.

Lemma add_nan_l (x : float) : (nan + x)%float = nan.
Proof. apply Prim2SF_inj. rewrite add_spec. reflexivity. Qed.

Lemma add_nan_r (x : float) : (x + nan)%float = nan.
Proof. rewrite add_comm. apply add_nan_l. Qed.

Lemma add_finite_inv (x y : float) :
  is_finite (x + y) = true -> is_finite x = true /\ is_finite y = true.
Proof.
  rewrite !is_finite_SF, add_spec. unfold SF64add.
  destruct (Prim2SF x) as [sx | sx | | sx mx ex];
    destruct (Prim2SF y) as [sy | sy | | sy my ey]; simpl;
    try (intros _; split; reflexivity);
    try discriminate;
    destruct sx, sy; discriminate.
Qed.

Lemma add_zero_r (x : float) : x <> (-0)%float -> (x + 0)%float = x.
Proof.
  intros Hz. apply Prim2SF_inj. rewrite add_spec.
  change (Prim2SF 0) with (S754_zero false).
  destruct (Prim2SF x) as [s | s | | s m e] eqn:E; try reflexivity.
  destruct s; [| reflexivity].
  exfalso. apply Hz, Prim2SF_inj. rewrite E. reflexivity.
Qed.

Lemma add_opp_diag (x : float) :
  (x + - x)%float = if is_finite x then 0%float else nan.
Proof.
  rewrite is_finite_SF.
  apply Prim2SF_inj. rewrite add_spec, opp_spec.
  destruct (Prim2SF x) as [s | s | | s m e]; try (destruct s; reflexivity);
    try reflexivity.
  unfold SF64add, SFadd, SFopp.
  set (M := fst (shl_align m e (Z.min e e))).
  destruct s; cbn [negb cond_Zopp Z.opp Z.add];
    rewrite Z.pos_sub_diag; reflexivity.
Qed.

(** *** Multiplication and division *)

Lemma mul_comm (x y : float) : (x * y)%float = (y * x)%float.
Proof.
  apply Prim2SF_inj. rewrite !mul_spec. unfold SF64mul.
  destruct (Prim2SF x) as [sx | sx | | sx mx ex];
    destruct (Prim2SF y) as [sy | sy | | sy my ey]; simpl;
    try reflexivity; try (destruct sx, sy; reflexivity).
  now rewrite (xorb_comm sy sx), (Pos.mul_comm my mx), (Z.add_comm ey ex).
Qed.

Lemma mul_opp_r (x y : float) : (x * - y)%float = (- (x * y))%float.
Proof. now rewrite (mul_comm x), mul_opp_l, (mul_comm y). Qed.

Lemma mul_opp_opp (x y : float) : (- x * - y)%float = (x * y)%float.
Proof. now rewrite mul_opp_l, mul_opp_r, opp_involutive. Qed.

Lemma mul_nan_l (x : float) : (nan * x)%float = nan.
Proof. apply Prim2SF_inj. rewrite mul_spec. reflexivity. Qed.

(** *** Comparison *)

(** Values that compare equal are the same value or two zeros. *)
Lemma eqb_cases (x y : float) :
  (x =? y)%float = true ->
  x = y \/ ((x =? 0)%float = true /\ (y =? 0)%float = true).
Proof.
  rewrite !eqb_spec. change (Prim2SF 0) with (S754_zero false).
  intros H.
  destruct (Prim2SF x) as [sx | sx | | sx mx ex] eqn:Ex;
    destruct (Prim2SF y) as [sy | sy | | sy my ey] eqn:Ey;
    try discriminate H;
    try (destruct sx; discriminate H);
    try (destruct sy; discriminate H).
  - right. split; reflexivity.
  - left. apply Prim2SF_inj. rewrite Ex, Ey.
    destruct sx, sy; try discriminate H; reflexivity.
  - left. apply Prim2SF_inj. rewrite Ex, Ey.
    unfold SFeqb, SFcompare in H.
    destruct sx, sy; try discriminate H;
      destruct (Z.compare ex ey) eqn:Ce; try discriminate H;
      destruct (Pos.compare_cont Eq mx my) eqn:Cm; try discriminate H;
      apply Z.compare_eq in Ce; apply Pos.compare_eq in Cm;
      subst; reflexivity.
Qed.

Lemma eqb_sym_true (x y : float) :
  (x =? y)%float = true -> (y =? x)%float = true.
Proof.
  intros H. destruct (eqb_cases x y H) as [-> | [Hx Hy]]; [exact H |].
  apply eq0_cases in Hx, Hy.
  destruct Hx as [-> | ->], Hy as [-> | ->]; reflexivity.
Qed.

Lemma eqb_sym (x y : float) : (x =? y)%float = (y =? x)%float.
Proof.
  destruct (x =? y)%float eqn:H1, (y =? x)%float eqn:H2; try reflexivity.
  - apply eqb_sym_true in H1. congruence.
  - apply eqb_sym_true in H2. congruence.
Qed.

Lemma eqb_trans (x y z : float) :
  (x =? y)%float = true -> (y =? z)%float = true -> (x =? z)%float = true.
Proof.
  intros H1 H2.
  destruct (eqb_cases x y H1) as [-> | [Hx Hy]]; [exact H2 |].
  destruct (eqb_cases y z H2) as [<- | [_ Hz]]; [exact H1 |].
  apply eq0_cases in Hx, Hz.
  destruct Hx as [-> | ->], Hz as [-> | ->]; reflexivity.
Qed.

Lemma eqb_mul_self (x y : float) :
  (x =? y)%float = true -> (x * x)%float = (y * y)%float.
Proof.
  intros H. destruct (eqb_cases x y H) as [-> | [Hx Hy]]; [reflexivity |].
  apply eq0_cases in Hx, Hy.
  destruct Hx as [-> | ->], Hy as [-> | ->]; reflexivity.
Qed.

Lemma opp_ltb0 (x : float) :
  (x <? 0)%float = true -> (- x <? 0)%float = false.
Proof.
  rewrite !ltb_spec, opp_spec. change (Prim2SF 0) with (S754_zero false).
  destruct (Prim2SF x) as [s | s | | s m e]; try discriminate;
    destruct s; try discriminate; reflexivity.
Qed.

Lemma abs_opp (x : float) : PrimFloat.abs (- x) = PrimFloat.abs x.
Proof.
  apply Prim2SF_inj. rewrite !abs_spec, opp_spec.
  destruct (Prim2SF x); reflexivity.
Qed.

(** *** Addition and a change of sign *)

Lemma normalize_opp (z e : Z) :
  z <> 0%Z ->
  binary_normalize prec emax (- z) e false
  = SFopp (binary_normalize prec emax z e false).
Proof.
  intros Hz. destruct z as [| p | p]; [congruence | |];
    unfold binary_normalize, binary_round, Z.opp;
    destruct (shl_align p e _) as [mz ez].
  - apply (round_negb false).
  - change (SFopp (binary_round_aux prec emax true (Z.pos mz) ez loc_Exact))
      with (SFopp (binary_round_aux prec emax (negb false) (Z.pos mz) ez loc_Exact)).
    rewrite round_negb.
    destruct (binary_round_aux prec emax false (Z.pos mz) ez loc_Exact); simpl;
      now rewrite ?negb_involutive.
Qed.

(** Negating both summands negates the sum, except that two sums that
    are zero may differ in sign. *)
Lemma SFadd_opp (x y : spec_float) :
  SFadd prec emax (SFopp x) (SFopp y) = SFopp (SFadd prec emax x y)
  \/ ((exists s, SFadd prec emax x y = S754_zero s)
      /\ (exists s, SFadd prec emax (SFopp x) (SFopp y) = S754_zero s)).
Proof.
  destruct x as [sx | sx | | sx mx ex]; destruct y as [sy | sy | | sy my ey];
    try (left; reflexivity);
    try (left; destruct sx, sy; reflexivity);
    try (right; destruct sx, sy; split; eexists; reflexivity).
  unfold SFadd, SFopp.
  set (ez := Z.min ex ey).
  set (MX := Z.pos (fst (shl_align mx ex ez))).
  set (MY := Z.pos (fst (shl_align my ey ez))).
  replace (cond_Zopp (negb sx) MX + cond_Zopp (negb sy) MY)%Z
    with (- (cond_Zopp sx MX + cond_Zopp sy MY))%Z
    by (destruct sx, sy; unfold cond_Zopp, negb; lia).
  destruct (Z.eq_dec (cond_Zopp sx MX + cond_Zopp sy MY) 0) as [-> | Hz].
  - right. split; eexists; reflexivity.
  - left. now apply normalize_opp.
Qed.

Lemma SF_zero_eq0 (x : float) (s : bool) :
  Prim2SF x = S754_zero s -> (x =? 0)%float = true.
Proof. intros E. rewrite eqb_spec, E. reflexivity. Qed.

(** The same at the level of values: the two sums are opposite, or both
    compare equal to zero. *)
Lemma add_opp_opp (x y : float) :
  (- x + - y)%float = (- (x + y))%float
  \/ ((x + y =? 0)%float = true /\ (- x + - y =? 0)%float = true).
Proof.
  destruct (SFadd_opp (Prim2SF x) (Prim2SF y)) as [H | [[s H1] [s' H2]]].
  - left. apply Prim2SF_inj. now rewrite opp_spec, !add_spec, !opp_spec.
  - right. split.
    + apply (SF_zero_eq0 _ s). now rewrite add_spec.
    + apply (SF_zero_eq0 _ s'). now rewrite add_spec, !opp_spec.
Qed.

(** *** Zeros as neutral elements, up to comparison *)

Lemma add_zero_l (x : float) : (x =? 0)%float = false -> (0 + x)%float = x.
Proof.
  intros H. rewrite add_comm. apply add_zero_r.
  intros ->. discriminate H.
Qed.

(** A value whose absolute value is below a bound is finite. *)
Lemma abs_ltb_finite (x y : float) :
  (PrimFloat.abs x <? y)%float = true -> is_finite y = true ->
  is_finite x = true.
Proof.
  rewrite !is_finite_SF, ltb_spec, abs_spec.
  destruct (Prim2SF x) as [s | s | | s m e]; try reflexivity;
    destruct (Prim2SF y) as [sy | sy | | sy my ey]; try discriminate;
    destruct sy; discriminate.
Qed.

(** *** Negation against addition, up to comparison *)

(** Adding a zero gives the same value back, or turns a zero into a
    zero. *)
Lemma add_zero_same (x z : float) :
  (z =? 0)%float = true ->
  (x + z)%float = x
  \/ ((x =? 0)%float = true /\ (x + z =? 0)%float = true).
Proof.
  intros Hz. apply eq0_cases in Hz.
  assert (G : forall s : bool,
             SFadd prec emax (Prim2SF x) (S754_zero s) = Prim2SF x
             \/ ((x =? 0)%float = true
                 /\ exists s', SFadd prec emax (Prim2SF x) (S754_zero s)
                               = S754_zero s')).
  { intros s. rewrite eqb_spec. change (Prim2SF 0) with (S754_zero false).
    destruct (Prim2SF x) as [sx | sx | | sx mx ex]; try (left; reflexivity).
    right. split; [reflexivity |]. destruct sx, s; eexists; reflexivity. }
  destruct Hz as [-> | ->].
  - destruct (G false) as [H | [H0 [s' H]]].
    + left. apply Prim2SF_inj. now rewrite add_spec.
    + right. split; [exact H0 |].
      apply (SF_zero_eq0 _ s'). now rewrite add_spec.
  - destruct (G true) as [H | [H0 [s' H]]].
    + left. apply Prim2SF_inj. now rewrite add_spec.
    + right. split; [exact H0 |].
      apply (SF_zero_eq0 _ s'). now rewrite add_spec.
Qed.

(** Two zeros behave alike as the left summand, up to the sign of a zero
    sum. *)
Lemma zero_add_same (a b v : float) :
  (a =? 0)%float = true -> (b =? 0)%float = true ->
  (a + v)%float = (b + v)%float
  \/ ((a + v =? 0)%float = true /\ (b + v =? 0)%float = true).
Proof.
  intros Ha Hb. apply eq0_cases in Ha, Hb.
  assert (G : forall s s' : bool,
             SFadd prec emax (S754_zero s) (Prim2SF v)
             = SFadd prec emax (S754_zero s') (Prim2SF v)
             \/ ((exists t, SFadd prec emax (S754_zero s) (Prim2SF v) = S754_zero t)
                 /\ (exists t, SFadd prec emax (S754_zero s') (Prim2SF v)
                               = S754_zero t))).
  { intros s s'. destruct (Prim2SF v) as [sv | sv | | sv mv ev];
      try (left; reflexivity).
    right. destruct s, s', sv; split; eexists; reflexivity. }
  assert (K : forall (s s' : bool) (a b : float),
             Prim2SF a = S754_zero s -> Prim2SF b = S754_zero s' ->
             (a + v)%float = (b + v)%float
             \/ ((a + v =? 0)%float = true /\ (b + v =? 0)%float = true)).
  { intros s s' a' b' Ea Eb.
    destruct (G s s') as [H | [[t H1] [t' H2]]].
    - left. apply Prim2SF_inj. now rewrite !add_spec, Ea, Eb.
    - right. split.
      + apply (SF_zero_eq0 _ t). now rewrite add_spec, Ea.
      + apply (SF_zero_eq0 _ t'). now rewrite add_spec, Eb. }
  destruct Ha as [-> | ->], Hb as [-> | ->].
  - apply (K false false); reflexivity.
  - apply (K false true); reflexivity.
  - apply (K true false); reflexivity.
  - apply (K true true); reflexivity.
Qed.

Lemma abs_zero (x y : float) :
  (x =? 0)%float = true -> (y =? 0)%float = true ->
  PrimFloat.abs x = PrimFloat.abs y.
Proof.
  intros Hx Hy. apply eq0_cases in Hx, Hy.
  destruct Hx as [-> | ->], Hy as [-> | ->]; reflexivity.
Qed.

End F64.

(** ** Basic equations of the embedding *)

Lemma Complex_rectangular (cos sin : float -> float) (x y : float) :
  Complex_ cos sin x y false = Complex2 x y.
Proof. reflexivity. Qed.

(** The magnitude is at least zero unless it is not-a-number. *)
Lemma abs_leb (a : Complex) :
  (0 <=? ComplexNumbers.abs a)%float = negb (is_nan (ComplexNumbers.abs a)).
Proof. apply F64.nltb0_leb, F64.sqrt_not_neg. Qed.

Example abs_nan : ComplexNumbers.abs (Complex2 nan 0) = nan.
Proof. reflexivity. Qed.

(** The text of a printed value, for any rendering of [double]. *)
Lemma render_print (show : float -> string) (c : Complex) :
  render show (print [] c)
  = ("(" ++ show (real_ c)
         ++ (if (imag_ c <? 0)%float
             then " - " ++ show (- imag_ c)%float
             else " + " ++ show (imag_ c))
         ++ "i)")%string.
Proof.
  unfold print. destruct (imag_ c <? 0)%float; reflexivity.
Qed.

(** ** The claims *)

(** The binary operators are ill-formed whatever their operands: each
    reads [other.real_], the name of a member function, as a number. *)
Lemma operators_ill_formed (a b : Complex) :
  add a b = ill_formed /\ sub a b = ill_formed /\ mul a b = ill_formed
  /\ denominator b = ill_formed /\ div a b = ill_formed.
Proof. repeat split. Qed.

(** The guard of the spec's [divide] fires on a divisor that is not the
    zero value when its squares underflow. *)
Remark Spec_divide_underflow :
  Spec.divide (Complex2 1 0) (Complex2 1e-200 0) = Throw DivisionByZero
  /\ is_zero_value (Complex2 1e-200 0) = false.
Proof. split; reflexivity. Qed.

(** C1 at the failing input: [operator/] as shipped is ill-formed and
    signals nothing for [(1, 1) / (0, 0)], although its guard is written
    before any division; the spec's [divide] fails there with
    DivisionByZero, as it does exactly when the denominator compares
    equal to zero. *)
Theorem div_ill_formed_no_error (a b : Complex) :
  div a b = ill_formed
  /\ div (Complex2 1 1) (Complex2 0 0) <> well_formed (Throw DivisionByZero)
  /\ Spec.divide (Complex2 1 1) (Complex2 0 0) = Throw DivisionByZero
  /\ (Spec.divide a b = Throw DivisionByZero
      <-> (real_ b * real_ b + imag_ b * imag_ b =? 0)%float = true).
Proof.
  repeat split; try discriminate.
  - unfold Spec.divide.
    destruct (real_ b * real_ b + imag_ b * imag_ b =? 0)%float;
      [reflexivity | discriminate].
  - intros H. unfold Spec.divide. now rewrite H.
Qed.

(** C2 at the failing input: [operator/] as shipped is ill-formed and
    returns no quotient for [(1, 0) / (0, 1)], where the spec's [divide]
    gives real part [0] and imaginary part [-1]; its denominator and the
    product it divides are ill-formed as well. *)
Theorem div_ill_formed_no_quotient (a b : Complex) :
  div a b <> well_formed (Spec.divide a b)
  /\ denominator b = ill_formed
  /\ mul a (conj b) = ill_formed
  /\ div (Complex2 1 0) (Complex2 0 1) = ill_formed
  /\ Spec.divide (Complex2 1 0) (Complex2 0 1)
     = Return {| real_ := 0; imag_ := -1 |}.
Proof. repeat split. discriminate. Qed.

(** C3 at the failing input: [operator*] as shipped is ill-formed and
    computes no product for [(1, 2) * (3, 4)], where the spec's
    [multiply] gives [(-5, 10)]. *)
Theorem mul_ill_formed (a b : Complex) :
  mul a b = ill_formed
  /\ mul a b <> well_formed (Spec.multiply a b)
  /\ mul (Complex2 1 2) (Complex2 3 4) = ill_formed
  /\ Spec.multiply (Complex2 1 2) (Complex2 3 4)
     = {| real_ := -5; imag_ := 10 |}.
Proof. repeat split. discriminate. Qed.

(** C4: polar construction from a magnitude [m] of any sign and an angle
    [t] gives real part [m * cos t] and imaginary part [m * sin t].
    Nothing is rejected or normalized: the constructor returns for every
    input, and negating the magnitude negates both components. *)
Theorem polar_constructor (cos sin : float -> float) (m t : float) :
  Complex_ cos sin m t true
  = {| real_ := m * cos t; imag_ := m * sin t |}
  /\ Complex_ cos sin (- m) t true
     = {| real_ := - real_ (Complex_ cos sin m t true);
          imag_ := - imag_ (Complex_ cos sin m t true) |}.
Proof.
  split; [reflexivity |].
  unfold Complex_. simpl. now rewrite !F64.mul_opp_l.
Qed.

(** C5: [magnitude(a)] is the square root of [a.real*a.real + a.imag*a.imag],
    it is never below zero, it is a total function, and the magnitude of
    [(3, 4)] is exactly [5.0]. *)
Theorem abs_sqrt_not_negative (a : Complex) :
  ComplexNumbers.abs a = sqrt (real_ a * real_ a + imag_ a * imag_ a)
  /\ (ComplexNumbers.abs a <? 0)%float = false
  /\ ComplexNumbers.abs (Complex2 3 4) = 5%float.
Proof.
  repeat split. apply F64.sqrt_not_neg.
Qed.




(** C7 (as amended): [conjugate(a)] is [(a.real, -a.imag)], and conjugating
    twice gives back the very same value; under the type's [==] the
    double conjugate equals [a] exactly when no component of [a] is
    not-a-number. *)
Theorem conj_involutive (a : Complex) :
  conj a = {| real_ := real_ a; imag_ := - imag_ a |}
  /\ conj (conj a) = a
  /\ eqb (conj (conj a)) a = negb (has_nan a).
Proof.
  assert (E : conj (conj a) = a).
  { destruct a as [re im]. unfold conj, Complex2. simpl.
    now rewrite F64.opp_involutive. }
  repeat split; [exact E |].
  rewrite E. unfold eqb, has_nan.
  rewrite !F64.eqb_refl_nan. now rewrite negb_orb.
Qed.

(** C7 (as stated) is refuted: with a not-a-number real part the double
    conjugate does not compare equal to the value it came from. *)
Lemma conj_involutive_fails_on_nan :
  eqb (conj (conj (Complex2 nan 0))) (Complex2 nan 0) = false.
Proof. reflexivity. Qed.

(** C8: [a == b] is true if and only if the real parts compare equal and
    the imaginary parts compare equal, with no tolerance: two adjacent
    doubles already differ. *)
Theorem eqb_exact (a b : Complex) :
  (eqb a b = true
   <-> (real_ a =? real_ b)%float = true /\ (imag_ a =? imag_ b)%float = true)
  /\ eqb (Complex2 1 0) (Complex2 (next_up 1) 0) = false.
Proof.
  split; [| reflexivity].
  unfold eqb. apply andb_true_iff.
Qed.

(** Outside the negative zero and not-a-number, the number written
    after the sign is the absolute value of the imaginary part. *)
Lemma print_magnitude (os : ostream) (c : Complex) :
  imag_ c <> (-0)%float -> is_nan (imag_ c) = false ->
  print os c
  = os ++ [Str "("; Dbl (real_ c);
           Str (if (imag_ c <? 0)%float then " - " else " + ");
           Dbl (PrimFloat.abs (imag_ c)); Str "i)"].
Proof.
  intros Hz _. unfold print.
  destruct (imag_ c <? 0)%float eqn:E.
  - rewrite (F64.ltb0_opp_abs _ E). now rewrite <- !app_assoc.
  - rewrite (F64.nltb0_abs _ E Hz). now rewrite <- !app_assoc.
Qed.

(** C9 at the failing input: for [(3, -0.0)] the imaginary part has its
    sign bit set, yet the formatter takes the branch for [" + "] and
    writes [-0.0] itself, which is not its absolute value; the sibling
    branch writes [" - "] and the absolute value, as for [(3, -4)]. *)
Theorem print_negative_zero_after_plus :
  print [] (Complex2 3 (-0)) = [Str "("; Dbl 3; Str " + "; Dbl (-0); Str "i)"]
  /\ get_sign (imag_ (Complex2 3 (-0))) = true
  /\ (-0)%float <> PrimFloat.abs (-0)
  /\ print [] (Complex2 3 (-4)) = [Str "("; Dbl 3; Str " - "; Dbl 4; Str "i)"]
  /\ print [] (Complex2 3 4) = [Str "("; Dbl 3; Str " + "; Dbl 4; Str "i)"].
Proof.
  repeat split. exact F64.neg_zero_neq_zero.
Qed.

(** ** The voltage-law check *)

(** The self-test of the file: a balanced and an unbalanced loop. *)
Example test_balanced_loop :
  voltage_law_satisfied (T := float) [10; -4; -6]%float = true.
Proof. reflexivity. Qed.

Example test_unbalanced_loop :
  voltage_law_satisfied (T := float) [12; -5; -4]%float = false.
Proof. reflexivity. Qed.

(** For [double] the check is the comparison of the absolute value of the
    accumulated sum with the tolerance [1e-6]; the empty loop passes. *)
Lemma voltage_law_double (voltages : list float) :
  voltage_law_satisfied voltages
  = (PrimFloat.abs (fold_left PrimFloat.add voltages 0%float) <? 1e-6)%float
  /\ voltage_law_satisfied (T := float) [] = true.
Proof. split; reflexivity. Qed.

Lemma wrap_range (z : Z) : (INT_MIN <= wrap z < 2 ^ 31)%Z.
Proof.
  unfold wrap, INT_MIN.
  pose proof (Z.mod_pos_bound (z + 2 ^ 31) (2 ^ 32) eq_refl). lia.
Qed.

Lemma wrap_small (z : Z) : (INT_MIN <= z < 2 ^ 31)%Z -> wrap z = z.
Proof.
  unfold wrap, INT_MIN. intros H.
  rewrite Z.mod_small; lia.
Qed.

Lemma accumulate_int_range (voltages : list int) (init : int) :
  (INT_MIN <= init < 2 ^ 31)%Z ->
  (INT_MIN <= accumulate voltages init < 2 ^ 31)%Z.
Proof.
  unfold accumulate. revert init.
  induction voltages as [| v voltages IH]; intros init Hinit; simpl.
  - exact Hinit.
  - apply IH, wrap_range.
Qed.

(** For [int] the tolerance is [static_cast<int>(1e-6)], which is [0]: short
    of an overflowing negation the check fails whatever the voltages are. *)
Lemma voltage_law_int_false (voltages : list int) :
  accumulate voltages (of_int 0) <> INT_MIN ->
  voltage_law_satisfied voltages = false.
Proof.
  intros Hmin. unfold voltage_law_satisfied.
  pose proof (accumulate_int_range voltages (of_int 0) (wrap_range 0)) as R.
  set (sum := accumulate voltages (of_int 0)) in *.
  change (of_double 1e-6) with 0%Z. cbn [lt abs int_number].
  apply Z.ltb_ge.
  destruct (sum <? 0)%Z eqn:E.
  - apply Z.ltb_lt in E. rewrite wrap_small; unfold INT_MIN in *; lia.
  - apply Z.ltb_ge in E. exact E.
Qed.

(** C10 at the failing inputs: with [int] voltages the tolerance truncates
    to zero and the check rejects the empty loop and the balanced loop
    [10, -4, -6], both of which it accepts with [double] voltages. *)
Theorem voltage_law_int_rejects_balanced :
  of_double (T := int) 1e-6 = 0%Z
  /\ voltage_law_satisfied (T := int) [] = false
  /\ voltage_law_satisfied (T := int) [10; -4; -6]%Z = false
  /\ voltage_law_satisfied (T := float) [] = true
  /\ voltage_law_satisfied (T := float) [10; -4; -6]%float = true.
Proof. repeat split. Qed.


(** ** Further properties of the [Complex] operators *)

Lemma has_nan_fields (a : Complex) :
  has_nan a = true -> real_ a = nan \/ imag_ a = nan.
Proof.
  unfold has_nan. intros H. apply orb_true_iff in H.
  destruct H as [H | H]; apply F64.is_nan_spec in H; auto.
Qed.

Lemma abs_nan_component (b : Complex) :
  has_nan b = true -> ComplexNumbers.abs b = nan.
Proof.
  intros H. destruct b as [re im]. unfold ComplexNumbers.abs. simpl.
  destruct (has_nan_fields _ H) as [E | E]; simpl in E; subst.
  - now rewrite F64.mul_nan_l, F64.add_nan_l.
  - now rewrite F64.mul_nan_l, F64.add_nan_r.
Qed.

(** X6: conjugation does not change the magnitude: [abs()] of [~a] is
    not-a-number exactly when [abs()] of [a] is, and for every [a]
    without a not-a-number component the two magnitudes are the same
    value. *)
Theorem conj_preserves_modulus (a : Complex) :
  is_nan (ComplexNumbers.abs (conj a)) = is_nan (ComplexNumbers.abs a)
  /\ (has_nan a = false ->
      ComplexNumbers.abs (conj a) = ComplexNumbers.abs a).
Proof.
  assert (E : ComplexNumbers.abs (conj a) = ComplexNumbers.abs a).
  { destruct a as [re im]. unfold ComplexNumbers.abs, conj, Complex2. simpl.
    now rewrite F64.mul_opp_opp. }
  split; [now rewrite E | intros _; exact E].
Qed.

(** X9: values that compare equal under [==], which does not tell [+0.0]
    from [-0.0], have the same magnitude. *)
Theorem eqb_same_modulus (a b : Complex) :
  eqb a b = true -> ComplexNumbers.abs a = ComplexNumbers.abs b.
Proof.
  unfold eqb, ComplexNumbers.abs. intros H.
  apply andb_true_iff in H as [Hre Him].
  now rewrite (F64.eqb_mul_self _ _ Hre), (F64.eqb_mul_self _ _ Him).
Qed.

Lemma eqb_same_modulus_witness :
  eqb (Complex2 0 (-3)) (Complex2 (-0) (-3)) = true
  /\ ComplexNumbers.abs (Complex2 0 (-3)) = ComplexNumbers.abs (Complex2 (-0) (-3)).
Proof.
  split; [reflexivity |].
  exact (eqb_same_modulus (Complex2 0 (-3)) (Complex2 (-0) (-3)) eq_refl).
Defined.

(** X10: a not-a-number component is never reported as an error by
    [abs()]: the magnitude is then not-a-number. *)
Theorem nan_component_propagates (b : Complex) :
  has_nan b = true -> is_nan (ComplexNumbers.abs b) = true.
Proof.
  intros H. now rewrite (abs_nan_component b H).
Qed.

Lemma nan_component_propagates_witness :
  has_nan (Complex2 1 nan) = true
  /\ is_nan (ComplexNumbers.abs (Complex2 1 nan)) = true.
Proof.
  split; [reflexivity |].
  exact (nan_component_propagates (Complex2 1 nan) eq_refl).
Defined.

(** X8: [==] is symmetric and transitive. *)
Theorem eqb_sym_trans (a b c : Complex) :
  eqb a b = eqb b a
  /\ (eqb a b = true -> eqb b c = true -> eqb a c = true).
Proof.
  unfold eqb. split.
  - now rewrite (F64.eqb_sym (real_ a)), (F64.eqb_sym (imag_ a)).
  - intros H1 H2.
    apply andb_true_iff in H1 as [R1 I1], H2 as [R2 I2].
    now rewrite (F64.eqb_trans _ _ _ R1 R2), (F64.eqb_trans _ _ _ I1 I2).
Qed.

(** X11: printing appends to the stream and leaves what was written
    before untouched, so printing two values in a row is the
    concatenation of the two printings. *)
Theorem print_chain (os : ostream) (a b : Complex) :
  print (print os a) b = os ++ print [] a ++ print [] b.
Proof.
  unfold print.
  destruct (imag_ a <? 0)%float, (imag_ b <? 0)%float;
    now rewrite <- ?app_assoc.
Qed.

(** X12: the number written after the sign never compares below zero,
    and the sign is one of [" - "] and [" + "]. *)
Theorem print_number_not_negative (c : Complex) :
  exists (sign : string) (d : float),
    print [] c = [Str "("; Dbl (real_ c); Str sign; Dbl d; Str "i)"]
    /\ (sign = " - "%string \/ sign = " + "%string)
    /\ (d <? 0)%float = false.
Proof.
  unfold print. destruct (imag_ c <? 0)%float eqn:E.
  - exists " - "%string, (- imag_ c)%float.
    repeat split; auto. now apply F64.opp_ltb0.
  - exists " + "%string, (imag_ c). repeat split; auto.
Qed.

(** ** The random numbers of the self-test *)

(** A property checked on each of [0..99] holds of every remainder
    modulo [100]. *)
Lemma forall_below_100 (P : Z -> bool) :
  forallb P (map Z.of_nat (seq 0 100)) = true ->
  forall k : Z, (0 <= k < 100)%Z -> P k = true.
Proof.
  intros H k Hk. rewrite forallb_forall in H. apply H.
  apply in_map_iff. exists (Z.to_nat k). split; [lia |].
  apply in_seq. lia.
Qed.

Lemma rem_100_range (r : Z) : (0 <= r)%Z -> (0 <= Z.rem r 100 < 100)%Z.
Proof. intros H. apply Z.rem_bound_pos; lia. Qed.

(** X13: whatever [std::rand()] returns, [get_rand()] lies between [-0.5]
    and [0.49]; the upper end [0.5] of the documented range is never
    reached, and the result compares equal to zero exactly when the
    random value is [50] modulo [100]. *)
Theorem get_rand_range (r : Z) :
  (0 <= r)%Z ->
  (-0.5 <=? get_rand r)%float = true
  /\ (get_rand r <=? 0.49)%float = true
  /\ ((get_rand r =? 0)%float = true <-> Z.rem r 100 = 50%Z).
Proof.
  intros Hr. apply rem_100_range in Hr.
  unfold get_rand. set (k := Z.rem r 100) in *. clearbody k.
  pose (g := fun k : Z => (double_of_int (k - 50) / 100)%float).
  assert (H : ((-0.5 <=? g k)%float
               && (g k <=? 0.49)%float
               && Bool.eqb (g k =? 0)%float (k =? 50)%Z) = true).
  { revert k Hr. apply forall_below_100. vm_compute. reflexivity. }
  apply andb_true_iff in H as [H H3]. apply andb_true_iff in H as [H1 H2].
  apply eqb_prop in H3. subst g. cbv beta in *.
  repeat split; auto.
  - intros E. rewrite E in H3. symmetry in H3. now apply Z.eqb_eq.
  - intros E. rewrite H3. now apply Z.eqb_eq.
Qed.

Lemma get_rand_range_witness :
  (-0.5 <=? get_rand 12345)%float = true
  /\ (get_rand 12345 <=? 0.49)%float = true.
Proof.
  assert (H : (0 <= 12345)%Z) by lia.
  split; [exact (proj1 (get_rand_range 12345 H))
         | exact (proj1 (proj2 (get_rand_range 12345 H)))].
Defined.

(** ** Further properties of the voltage-law check on [double] *)

Lemma fold_add_finite (voltages : list float) (init : float) :
  is_finite (fold_left PrimFloat.add voltages init) = true ->
  is_finite init = true /\ Forall (fun v => is_finite v = true) voltages.
Proof.
  revert init. induction voltages as [| v voltages IH]; intros init H; simpl in *.
  - split; [exact H | constructor].
  - apply IH in H as [H F]. apply F64.add_finite_inv in H as [Hi Hv].
    split; [exact Hi | now constructor].
Qed.

(** X15: a loop that contains an infinite or a not-a-number voltage is
    never reported as satisfying the law. *)
Theorem voltage_law_rejects_non_finite (voltages : list float) :
  voltage_law_satisfied voltages = true ->
  Forall (fun v => is_finite v = true) voltages.
Proof.
  unfold voltage_law_satisfied, accumulate. cbn [lt abs plus of_double double].
  intros H. apply F64.abs_ltb_finite in H; [| reflexivity].
  now apply fold_add_finite in H.
Qed.

Lemma voltage_law_rejects_non_finite_witness :
  Forall (fun v => is_finite v = true) [10; -4; -6]%float.
Proof.
  exact (voltage_law_rejects_non_finite [10; -4; -6]%float eq_refl).
Defined.

(** X16: a voltage followed by its opposite balances exactly when the
    voltage is finite. *)
Theorem voltage_law_opposite_pair (v : float) :
  voltage_law_satisfied [v; (- v)%float] = is_finite v.
Proof.
  unfold voltage_law_satisfied, accumulate.
  cbn [lt abs plus of_double of_int double fold_left].
  change (SF2Prim (binary_normalize prec emax 0 0 false)) with 0%float.
  destruct (v =? 0)%float eqn:E.
  - apply F64.eq0_cases in E. destruct E as [-> | ->]; reflexivity.
  - rewrite (F64.add_zero_l _ E), F64.add_opp_diag.
    destruct (is_finite v); reflexivity.
Qed.

(** Two running sums are mirror images: opposite values, or both zero. *)
Lemma mirror_step (a b v : float) :
  b = (- a)%float \/ ((a =? 0)%float = true /\ (b =? 0)%float = true) ->
  (b + - v)%float = (- (a + v))%float
  \/ ((a + v =? 0)%float = true /\ (b + - v =? 0)%float = true).
Proof.
  intros [-> | [Ha Hb]]; [apply F64.add_opp_opp |].
  apply F64.eq0_cases in Ha, Hb.
  assert (Z : forall z z' : bool,
             SFadd prec emax (S754_zero z') (SFopp (Prim2SF v))
             = SFopp (SFadd prec emax (S754_zero z) (Prim2SF v))
             \/ ((exists s, SFadd prec emax (S754_zero z) (Prim2SF v) = S754_zero s)
                 /\ (exists s, SFadd prec emax (S754_zero z') (SFopp (Prim2SF v))
                               = S754_zero s))).
  { intros z z'. destruct (Prim2SF v) as [s | s | | s m e];
      try (left; reflexivity).
    right. destruct z, z', s; split; eexists; reflexivity. }
  assert (G : forall (z z' : bool) (a b : float),
             Prim2SF a = S754_zero z -> Prim2SF b = S754_zero z' ->
             (b + - v)%float = (- (a + v))%float
             \/ ((a + v =? 0)%float = true /\ (b + - v =? 0)%float = true)).
  { intros z z' a' b' Ea Eb.
    destruct (Z z z') as [H | [[s H1] [s' H2]]].
    - left. apply Prim2SF_inj.
      rewrite opp_spec, !add_spec, opp_spec, Ea, Eb. exact H.
    - right. split.
      + apply (F64.SF_zero_eq0 _ s). now rewrite add_spec, Ea.
      + apply (F64.SF_zero_eq0 _ s'). now rewrite add_spec, opp_spec, Eb. }
  destruct Ha as [-> | ->], Hb as [-> | ->].
  - apply (G false false); reflexivity.
  - apply (G false true); reflexivity.
  - apply (G true false); reflexivity.
  - apply (G true true); reflexivity.
Qed.

Lemma mirror_fold (voltages : list float) (a b : float) :
  b = (- a)%float \/ ((a =? 0)%float = true /\ (b =? 0)%float = true) ->
  PrimFloat.abs (fold_left PrimFloat.add (map PrimFloat.opp voltages) b)
  = PrimFloat.abs (fold_left PrimFloat.add voltages a).
Proof.
  revert a b. induction voltages as [| v voltages IH]; intros a b H; simpl.
  - destruct H as [-> | [Ha Hb]]; [apply F64.abs_opp |].
    apply F64.eq0_cases in Ha, Hb.
    destruct Ha as [-> | ->], Hb as [-> | ->]; reflexivity.
  - apply IH, mirror_step, H.
Qed.

(** X17: reversing the polarity of every voltage does not change the
    verdict. *)
Theorem voltage_law_polarity (voltages : list float) :
  voltage_law_satisfied (map PrimFloat.opp voltages)
  = voltage_law_satisfied voltages.
Proof.
  unfold voltage_law_satisfied, accumulate.
  cbn [lt abs plus of_double of_int double].
  change (SF2Prim (binary_normalize prec emax 0 0 false)) with 0%float.
  rewrite (mirror_fold voltages 0 0); [reflexivity |].
  right. split; reflexivity.
Qed.

(** X18: the verdict depends on the order of the voltages: the sum is
    accumulated from left to right in [double], and a reordering of the
    same loop can turn an accepted loop into a rejected one. *)
Theorem voltage_law_order_dependent :
  exists voltages voltages' : list float,
    Permutation voltages voltages'
    /\ voltage_law_satisfied voltages = true
    /\ voltage_law_satisfied voltages' = false.
Proof.
  exists [1e16; 1; -1e16]%float, [1e16; -1e16; 1]%float.
  repeat split.
  apply perm_skip, perm_swap.
Qed.

(** ** The self-test of Bernoulli's theorem *)

Import Bernoulli.

Example round_half_away :
  round 2.5 = 3%float /\ round (-2.5) = (-3)%float
  /\ round 0.3 = 0%float /\ round (-0.3) = (-0)%float
  /\ round 0.49999999999999994 = 0%float.
Proof. repeat split. Qed.

(** X20: with a [pow] that squares [10.0] exactly, the self-test computes
    the rounded total pressure [101446.3], which is not the expected
    [101446.1]: the assertion of [test()] does not hold. *)
Theorem bernoulli_test_assertion_fails (pow : float -> float -> float) :
  pow 10%float 2%float = 100%float ->
  test_output pow = 101446.3%float /\ test_assertion pow = false.
Proof.
  intros H. unfold test_assertion, test_output, total_pressure.
  rewrite H. split; reflexivity.
Qed.

Lemma bernoulli_test_assertion_fails_witness :
  test_assertion (fun x _ => x * x)%float = false.
Proof.
  exact (proj2 (bernoulli_test_assertion_fails (fun x _ => x * x)%float eq_refl)).
Defined.

(** ** Zero voltages and integer voltages *)

(** Two running sums that are the same value or both zero end with the
    same absolute value. *)
Lemma same_or_zero_fold (voltages : list float) (a b : float) :
  a = b \/ ((a =? 0)%float = true /\ (b =? 0)%float = true) ->
  PrimFloat.abs (fold_left PrimFloat.add voltages a)
  = PrimFloat.abs (fold_left PrimFloat.add voltages b).
Proof.
  revert a b. induction voltages as [| v voltages IH]; intros a b H; simpl.
  - destruct H as [-> | [Ha Hb]]; [reflexivity | now apply F64.abs_zero].
  - apply IH. destruct H as [-> | [Ha Hb]]; [now left |].
    now apply F64.zero_add_same.
Qed.

(** X23: an element of zero volts, of either sign, never changes the
    verdict, wherever it stands in the loop. *)
Theorem voltage_law_zero_element (before after : list float) (z : float) :
  (z =? 0)%float = true ->
  voltage_law_satisfied (before ++ z :: after)
  = voltage_law_satisfied (before ++ after).
Proof.
  intros Hz. unfold voltage_law_satisfied, accumulate.
  cbn [lt abs plus of_double of_int double].
  rewrite !fold_left_app. cbn [fold_left].
  f_equal.
  apply same_or_zero_fold.
  destruct (F64.add_zero_same (fold_left PrimFloat.add before
                                 (SF2Prim (binary_normalize prec emax 0 0 false)))
                              z Hz) as [-> | [H1 H2]]; auto.
Qed.

Lemma voltage_law_zero_element_witness :
  voltage_law_satisfied [10; -0; -4; -6]%float
  = voltage_law_satisfied [10; -4; -6]%float.
Proof.
  exact (voltage_law_zero_element [10]%float [-4; -6]%float (-0)%float eq_refl).
Defined.

Lemma accumulate_int_exact (voltages : list int) (acc : Z) :
  (INT_MIN < acc < 2 ^ 31)%Z ->
  no_overflow acc voltages = true ->
  (INT_MIN < accumulate voltages acc < 2 ^ 31)%Z.
Proof.
  unfold accumulate. revert acc.
  induction voltages as [| v voltages IH]; intros acc Hacc H; simpl in *.
  - exact Hacc.
  - apply andb_true_iff in H as [H H3]. apply andb_true_iff in H as [H1 H2].
    apply Z.ltb_lt in H1, H2.
    rewrite wrap_small by (unfold INT_MIN in *; lia).
    apply IH; [lia | exact H3].
Qed.

(** X19: with [int] voltages the check is never satisfied: whenever the
    running sums stay clear of signed overflow, the result is [false],
    exactly balanced loops included. *)
Theorem voltage_law_int_never_satisfied (voltages : list int) :
  no_overflow 0 voltages = true ->
  voltage_law_satisfied voltages = false.
Proof.
  intros H. apply voltage_law_int_false.
  pose proof (accumulate_int_exact voltages 0) as R.
  change (of_int 0) with 0%Z.
  unfold INT_MIN in *. specialize (R ltac:(lia) H). lia.
Qed.

Lemma voltage_law_int_never_satisfied_witness :
  voltage_law_satisfied (T := int) [10; -4; -6]%Z = false.
Proof.
  exact (voltage_law_int_never_satisfied [10; -4; -6]%Z eq_refl).
Defined.
